(** * Verification model of [app.py] (SIST ACM SIGAI event registration)

    Shallow embedding of the Flask application: the registration and
    validation handlers, the two MongoDB collections they use, the JSON
    text they exchange ([json.dumps] / [json.loads], as CPython's C
    encoder and scanner do them), and the URL map. *)

From Stdlib Require Import ZArith Lia List String Ascii Bool.
From Stdlib Require Import Zbitwise.
Import ListNotations.
Open Scope Z_scope.
Set Warnings "-register-all".

(* ------------------------------------------------------------------ *)
(** ** Python text: a [str] is a sequence of code points. *)

Definition pystr := list Z.

(** A Rocq (ASCII) literal as a Python [str]. *)
Definition pstr (s : string) : pystr :=
  map (fun a => Z.of_nat (nat_of_ascii a)) (list_ascii_of_string s).

(** Code points that UTF-8 decoding of form data can produce
    (Unicode scalar values: no surrogates). *)
Definition scalar_value (c : Z) : bool :=
  ((0 <=? c) && (c <? 55296)) || ((57344 <=? c) && (c <=? 1114111)).

Definition wf_str (s : pystr) : bool := forallb scalar_value s.

(* ------------------------------------------------------------------ *)
(** ** JSON values, as [json.loads] returns them.

    Numbers keep the text of their literal ([int(...)] / [float(...)] of
    it in Python); [NaN], [Infinity] and [-Infinity] are kept the same way.
    Objects are Python dicts: insertion ordered, one entry per key. *)

Inductive json :=
| JNull
| JBool (b : bool)
| JNum (lit : pystr)
| JStr (s : pystr)
| JArr (l : list json)
| JObj (kv : list (pystr * json)).

Definition dict := list (pystr * json).

Fixpoint pystr_eqb (a b : pystr) : bool :=
  match a, b with
  | [], [] => true
  | x :: a', y :: b' => (x =? y) && pystr_eqb a' b'
  | _, _ => false
  end.

(** [d.get(k)] *)
Fixpoint dict_get (d : dict) (k : pystr) : option json :=
  match d with
  | [] => None
  | (k', v) :: d' => if pystr_eqb k k' then Some v else dict_get d' k
  end.

(** [d[k] = v]: an existing key keeps its position. *)
Fixpoint dict_set (d : dict) (k : pystr) (v : json) : dict :=
  match d with
  | [] => [(k, v)]
  | (k', v') :: d' =>
      if pystr_eqb k k' then (k', v) :: d' else (k', v') :: dict_set d' k v
  end.

(** [k in d] *)
Definition dict_mem (d : dict) (k : pystr) : bool :=
  match dict_get d k with Some _ => true | None => false end.

(** Structural equality of JSON values (used for the equality match of a
    MongoDB query; see [matches]). *)
Fixpoint json_eqb (a b : json) : bool :=
  match a, b with
  | JNull, JNull => true
  | JBool x, JBool y => Bool.eqb x y
  | JNum x, JNum y => pystr_eqb x y
  | JStr x, JStr y => pystr_eqb x y
  | JArr xs, JArr ys =>
      (fix go (xs ys : list json) : bool :=
         match xs, ys with
         | [], [] => true
         | x :: xs', y :: ys' => json_eqb x y && go xs' ys'
         | _, _ => false
         end) xs ys
  | JObj xs, JObj ys =>
      (fix go (xs ys : list (pystr * json)) : bool :=
         match xs, ys with
         | [], [] => true
         | (kx, x) :: xs', (ky, y) :: ys' =>
             pystr_eqb kx ky && json_eqb x y && go xs' ys'
         | _, _ => false
         end) xs ys
  | _, _ => false
  end.

(* ------------------------------------------------------------------ *)
(** ** [json.dumps] (default separators [", "] and [": "],
    [ensure_ascii=True]), after CPython's [Modules/_json.c]. *)

Definition hexdigits : list Z := map (fun c => Z.of_nat (nat_of_ascii c))
  (list_ascii_of_string "0123456789abcdef").

Definition hexdigit (d : Z) : Z := nth (Z.to_nat d) hexdigits 0.

(** [\uXXXX] for a code point below [0x10000]. *)
Definition u_escape (c : Z) : pystr :=
  [92; 117;
   hexdigit (Z.land (Z.shiftr c 12) 15);
   hexdigit (Z.land (Z.shiftr c 8) 15);
   hexdigit (Z.land (Z.shiftr c 4) 15);
   hexdigit (Z.land c 15)].

(** [Py_UNICODE_HIGH_SURROGATE] and [Py_UNICODE_LOW_SURROGATE]. *)
Definition high_surrogate (c : Z) : Z := 55296 - Z.shiftr 65536 10 + Z.shiftr c 10.
Definition low_surrogate (c : Z) : Z := 56320 + Z.land c 1023.

(** [ascii_escape_unichar] *)
Definition ascii_escape_unichar (c : Z) : pystr :=
  if c =? 92 then [92; 92]
  else if c =? 34 then [92; 34]
  else if c =? 8 then [92; 98]
  else if c =? 12 then [92; 102]
  else if c =? 10 then [92; 110]
  else if c =? 13 then [92; 114]
  else if c =? 9 then [92; 116]
  else if 65536 <=? c then u_escape (high_surrogate c) ++ u_escape (low_surrogate c)
  else u_escape c.

(** [ascii_escape_unicode]: printable ASCII is copied, the rest escaped. *)
Definition escape_char (c : Z) : pystr :=
  if (32 <=? c) && (c <=? 126) && negb (c =? 34) && negb (c =? 92) then [c]
  else ascii_escape_unichar c.

Definition encode_basestring_ascii (s : pystr) : pystr :=
  34 :: flat_map escape_char s ++ [34].

Fixpoint join (sep : pystr) (l : list pystr) : pystr :=
  match l with
  | [] => []
  | [x] => x
  | x :: l' => x ++ sep ++ join sep l'
  end.

Fixpoint dumps (v : json) : pystr :=
  match v with
  | JNull => pstr "null"
  | JBool true => pstr "true"
  | JBool false => pstr "false"
  | JNum lit => lit
  | JStr s => encode_basestring_ascii s
  | JArr l => [91] ++ join (pstr ", ") (map dumps l) ++ [93]
  | JObj kv =>
      [123] ++ join (pstr ", ")
                (map (fun '(k, x) => encode_basestring_ascii k ++ pstr ": " ++ dumps x) kv)
            ++ [125]
  end.

(* ------------------------------------------------------------------ *)
(** ** [json.loads], after CPython's C scanner ([scanstring_unicode],
    [scan_once_unicode], [_parse_object_unicode], [_parse_array_unicode],
    [_match_number_unicode]), strict mode.  [None] is [JSONDecodeError].
    Python's recursion limit on deep nesting and the 4300-digit limit of
    [int()] are not modelled. *)

(** [WHITESPACE = r'[ \t\n\r]*'] *)
Definition is_ws (c : Z) : bool := (c =? 32) || (c =? 9) || (c =? 10) || (c =? 13).

Fixpoint skip_ws (s : pystr) : pystr :=
  match s with
  | c :: s' => if is_ws c then skip_ws s' else s
  | [] => []
  end.

Fixpoint starts_with (p s : pystr) : bool :=
  match p, s with
  | [], _ => true
  | x :: p', y :: s' => (x =? y) && starts_with p' s'
  | _ :: _, [] => false
  end.

(** One digit of a [\uXXXX] escape. *)
Definition hex_value (d : Z) : option Z :=
  if (48 <=? d) && (d <=? 57) then Some (d - 48)
  else if (97 <=? d) && (d <=? 102) then Some (d - 97 + 10)
  else if (65 <=? d) && (d <=? 70) then Some (d - 65 + 10)
  else None.

(** [c <<= 4; c |= digit] over the four digits. *)
Definition hex4 (h1 h2 h3 h4 : Z) : option Z :=
  match hex_value h1, hex_value h2, hex_value h3, hex_value h4 with
  | Some a, Some b, Some c, Some d =>
      Some (Z.lor (Z.shiftl (Z.lor (Z.shiftl (Z.lor (Z.shiftl a 4) b) 4) c) 4) d)
  | _, _, _, _ => None
  end.

Definition is_high_surrogate (c : Z) : bool := (55296 <=? c) && (c <=? 56319).
Definition is_low_surrogate (c : Z) : bool := (56320 <=? c) && (c <=? 57343).

(** [Py_UNICODE_JOIN_SURROGATES] *)
Definition join_surrogates (hi lo : Z) : Z :=
  Z.lor (Z.shiftl (Z.land hi 1023) 10) (Z.land lo 1023) + 65536.

(** The one-character escapes: a backslash followed by a quote, a
    backslash, a slash or one of [b f n r t]. *)
Definition simple_escape (e : Z) : option Z :=
  if e =? 34 then Some 34
  else if e =? 92 then Some 92
  else if e =? 47 then Some 47
  else if e =? 98 then Some 8
  else if e =? 102 then Some 12
  else if e =? 110 then Some 10
  else if e =? 114 then Some 13
  else if e =? 116 then Some 9
  else None.

(** [scanstring_unicode], started just after the opening quote; [acc]
    holds the decoded characters in reverse.  Returns the string and the
    text after the closing quote. *)
Fixpoint scanstring (s : pystr) (acc : pystr) : option (pystr * pystr) :=
  match s with
  | [] => None                                    (* Unterminated string *)
  | c :: s1 =>
      if c =? 34 then Some (rev acc, s1)
      else if c =? 92 then
        match s1 with
        | [] => None                              (* Unterminated string *)
        | e :: s2 =>
            if negb (e =? 117) then
              match simple_escape e with
              | Some x => scanstring s2 (x :: acc)
              | None => None                      (* Invalid \escape *)
              end
            else
              match s2 with
              | h1 :: h2 :: h3 :: h4 :: s3 =>
                  match s3 with
                  | [] => None                    (* end >= len *)
                  | _ :: _ =>
                      match hex4 h1 h2 h3 h4 with
                      | None => None              (* Invalid \uXXXX escape *)
                      | Some u =>
                          (* surrogate pair: needs end + 6 < len *)
                          match s3 with
                          | b :: b' :: l1 :: l2 :: l3 :: l4 :: s4 =>
                              match s4 with
                              | _ :: _ =>
                                  if is_high_surrogate u && (b =? 92) && (b' =? 117) then
                                    match hex4 l1 l2 l3 l4 with
                                    | None => None
                                    | Some u2 =>
                                        if is_low_surrogate u2
                                        then scanstring s4 (join_surrogates u u2 :: acc)
                                        else scanstring s3 (u :: acc)
                                    end
                                  else scanstring s3 (u :: acc)
                              | [] => scanstring s3 (u :: acc)
                              end
                          | _ => scanstring s3 (u :: acc)
                          end
                      end
                  end
              | _ => None                         (* end >= len *)
              end
        end
      else if c <=? 31 then None                  (* Invalid control character *)
      else scanstring s1 (c :: acc)
  end.

Definition is_digit (c : Z) : bool := (48 <=? c) && (c <=? 57).

Fixpoint span_digits (s : pystr) : pystr * pystr :=
  match s with
  | c :: s' =>
      if is_digit c then let '(ds, r) := span_digits s' in (c :: ds, r) else ([], s)
  | [] => ([], [])
  end.

(** [_match_number_unicode]: the literal's text and what follows it. *)
Definition match_number (s : pystr) : option (pystr * pystr) :=
  let '(sign, s1) := match s with
                     | c :: t => if c =? 45 then ([45], t) else ([], s)
                     | [] => ([], [])
                     end in
  let int_part :=
    match s1 with
    | c :: t =>
        if (49 <=? c) && (c <=? 57) then let '(ds, r) := span_digits t in Some (c :: ds, r)
        else if c =? 48 then Some ([48], t)
        else None
    | [] => None
    end in
  match int_part with
  | None => None                                   (* StopIteration *)
  | Some (ip, r1) =>
      let '(fp, r2) :=
        match r1 with
        | p :: d :: t =>
            if (p =? 46) && is_digit d then let '(ds, r) := span_digits t in (p :: d :: ds, r)
            else ([], r1)
        | _ => ([], r1)
        end in
      let '(ep, r3) :=
        match r2 with
        | e :: (_ :: _) as t =>
            if (e =? 101) || (e =? 69) then
              let '(sg, t') := match t with
                               | g :: (_ :: _) as t2 =>
                                   if (g =? 45) || (g =? 43) then ([g], t2) else ([], t)
                               | _ => ([], t)
                               end in
              match span_digits t' with
              | ([], _) => ([], r2)                (* backtrack to e_start *)
              | (ds, r) => (e :: sg ++ ds, r)
              end
            else ([], r2)
        | _ => ([], r2)
        end in
      Some (sign ++ ip ++ fp ++ ep, r3)
  end.

Fixpoint scan_once (fuel : nat) (s : pystr) {struct fuel} : option (json * pystr) :=
  match fuel with
  | O => None
  | S f =>
      match s with
      | [] => None                                 (* StopIteration *)
      | c :: s1 =>
          if c =? 34 then
            match scanstring s1 [] with
            | Some (x, r) => Some (JStr x, r)
            | None => None
            end
          else if c =? 123 then
            let s2 := skip_ws s1 in
            match s2 with
            | c2 :: r => if c2 =? 125 then Some (JObj [], r) else parse_object f s2 []
            | [] => parse_object f s2 []
            end
          else if c =? 91 then
            let s2 := skip_ws s1 in
            match s2 with
            | c2 :: r => if c2 =? 93 then Some (JArr [], r) else parse_array f s2 []
            | [] => parse_array f s2 []
            end
          else if starts_with (pstr "null") s then Some (JNull, skipn 4 s)
          else if starts_with (pstr "true") s then Some (JBool true, skipn 4 s)
          else if starts_with (pstr "false") s then Some (JBool false, skipn 5 s)
          else if starts_with (pstr "NaN") s then Some (JNum (pstr "NaN"), skipn 3 s)
          else if starts_with (pstr "Infinity") s then Some (JNum (pstr "Infinity"), skipn 8 s)
          else if starts_with (pstr "-Infinity") s then Some (JNum (pstr "-Infinity"), skipn 9 s)
          else
            match match_number s with
            | Some (lit, r) => Some (JNum lit, r)
            | None => None
            end
      end
  end
(** The members of an object, from the first key on; [acc] is the dict. *)
with parse_object (fuel : nat) (s : pystr) (acc : dict) {struct fuel} : option (json * pystr) :=
  match fuel with
  | O => None
  | S f =>
      match s with
      | c :: s1 =>
          if negb (c =? 34) then None              (* Expecting property name *)
          else
            match scanstring s1 [] with
            | None => None
            | Some (k, r) =>
                match skip_ws r with
                | c1 :: r1 =>
                    if negb (c1 =? 58) then None     (* Expecting ':' delimiter *)
                    else
                      match scan_once f (skip_ws r1) with
                      | None => None
                      | Some (v, r2) =>
                          let acc' := dict_set acc k v in
                          match skip_ws r2 with
                          | c2 :: r3 =>
                              if c2 =? 125 then Some (JObj acc', r3)
                              else if c2 =? 44 then parse_object f (skip_ws r3) acc'
                              else None              (* Expecting ',' delimiter *)
                          | [] => None
                          end
                      end
                | [] => None
                end
            end
      | [] => None
      end
  end
(** The elements of an array, from the first one on; [acc] in reverse. *)
with parse_array (fuel : nat) (s : pystr) (acc : list json) {struct fuel} : option (json * pystr) :=
  match fuel with
  | O => None
  | S f =>
      match scan_once f s with
      | None => None
      | Some (v, r) =>
          match skip_ws r with
          | c :: r1 =>
              if c =? 93 then Some (JArr (rev (v :: acc)), r1)
              else if c =? 44 then parse_array f (skip_ws r1) (v :: acc)
              else None                            (* Expecting ',' delimiter *)
          | [] => None
          end
      end
  end.

(** [json.loads(s)] for a [str]: a leading BOM is refused, the value may
    be surrounded by whitespace, anything else after it is "Extra data".
    [None] stands for [JSONDecodeError].  CPython also raises
    [RecursionError] on deeply nested text and [ValueError] on an integer
    literal of more than 4300 digits; neither is modelled, so the theorems
    below take text satisfying [loads_safe]. *)
Definition loads (s : pystr) : option json :=
  if starts_with [65279] s then None
  else
    match scan_once (S (List.length s)) (skip_ws s) with
    | Some (v, r) => match skip_ws r with [] => Some v | _ :: _ => None end
    | None => None
    end.

(* ------------------------------------------------------------------ *)
(** ** MongoDB collections [eventdb.registration] and [eventdb.validation],
    the two Google Apps Script endpoints and the mail server. *)

Inductive collection := Registration | Validation.
Inductive script_url := REGISTRATION_SCRIPT_URL | VALIDATION_SCRIPT_URL.

(** A stored document: its [ObjectId] and its other fields. *)
Record doc := { doc_id : N; doc_fields : dict }.

(** What the application does to the outside world, in order. *)
Inductive event :=
| EFind (c : collection) (q : json)
| EInsert (c : collection) (d : doc)
| ELoads (s : pystr)
| EPost (url : script_url) (data : pystr)
| EMail (recipient : pystr) (qr_data : pystr).

Record world := {
  registration : list doc;
  validation : list doc;
  next_oid : N;
  trace : list event }.

(** State monad over [world]. *)
Definition M (A : Type) := world -> A * world.
Definition ret {A} (a : A) : M A := fun w => (a, w).
Definition bind {A B} (m : M A) (k : A -> M B) : M B :=
  fun w => let '(a, w') := m w in k a w'.
Notation "x <- m ;; k" := (bind m (fun x => k))
  (at level 61, m at next level, right associativity).

Definition emit (e : event) : M unit :=
  fun w => (tt, {| registration := registration w; validation := validation w;
                   next_oid := next_oid w; trace := trace w ++ [e] |}).

Definition coll_docs (c : collection) (w : world) : list doc :=
  match c with Registration => registration w | Validation => validation w end.

(** The query [{"register_number": q}] when [q] is a plain value: the
    field equals [q], or the field is an array with an element equal to
    [q], or the field is missing and [q] is [null].  Numbers are compared
    by literal here (MongoDB compares them by value).  An object [q] whose
    keys start with [$] ([$in], [$ne], ...) is a query operator in
    MongoDB; operators are not modelled, and the theorems below that reach
    a lookup take a register number that is a string. *)
Definition matches (q : json) (d : doc) : bool :=
  match dict_get (doc_fields d) (pstr "register_number") with
  | Some v =>
      json_eqb v q
      || match v with JArr l => existsb (fun e => json_eqb e q) l | _ => false end
  | None => match q with JNull => true | _ => false end
  end.

(** [collection.find_one({"register_number": q})].  pymongo raises when it
    cannot encode [q] as BSON (an integer outside 64 bits, a string with a
    lone surrogate); that exception is not modelled, so the theorems below
    take a register number that is a string of Unicode scalar values. *)
Definition find_one (c : collection) (q : json) : M (option doc) :=
  fun w => (find (matches q) (coll_docs c w),
            {| registration := registration w; validation := validation w;
               next_oid := next_oid w; trace := trace w ++ [EFind c q] |}).

(** [collection.insert_one(d)]: a fresh [ObjectId], no uniqueness index.
    pymongo raises when it cannot encode [d] as BSON (an integer outside
    64 bits, a string with a lone surrogate, a key holding NUL, more than
    16 MB); that exception is not modelled, so the theorems below insert
    only documents whose fields are strings of Unicode scalar values, of
    bounded length. *)
Definition insert_one (c : collection) (d : dict) : M N :=
  fun w =>
    let oid := next_oid w in
    let nd := {| doc_id := oid; doc_fields := d |} in
    (oid, {| registration := match c with
                             | Registration => registration w ++ [nd]
                             | Validation => registration w end;
             validation := match c with
                           | Registration => validation w
                           | Validation => validation w ++ [nd] end;
             next_oid := N.succ oid;
             trace := trace w ++ [EInsert c nd] |}).

(** [requests.post(url, data=...)]: the HTTP status comes from outside.
    A transport error raised by [requests] is not modelled. *)
Definition post (u : script_url) (data : pystr) : M unit := emit (EPost u data).

(** [str(ObjectId)]: 24 lowercase hex digits. *)
Definition oid_str (oid : N) : pystr :=
  map (fun i => hexdigit (Z.land (Z.shiftr (Z.of_N oid) (4 * (23 - Z.of_nat i))) 15))
      (seq 0 24).

(* ------------------------------------------------------------------ *)
(** ** Responses *)

Inductive response :=
| RTemplate (name : string)                       (* render_template *)
| RRedirect (endpoint : string) (flash : string)  (* flash + redirect(url_for) *)
| RJson (valid : bool) (message : string) (attendee : option dict)  (* jsonify *)
| RError (status : Z) (exc : string).             (* error page of Flask *)

(* ------------------------------------------------------------------ *)
(** ** [register()] *)

Record attendee := {
  name : pystr; degree : pystr; class_section : pystr; year : pystr;
  register_number : pystr; email : pystr; phone : pystr }.

(** [attendee_info], built from [request.form]. *)
Definition attendee_info (a : attendee) : dict :=
  [(pstr "name", JStr (name a));
   (pstr "degree", JStr (degree a));
   (pstr "class_section", JStr (class_section a));
   (pstr "year", JStr (year a));
   (pstr "register_number", JStr (register_number a));
   (pstr "email", JStr (email a));
   (pstr "phone", JStr (phone a))].

(** [json.dumps(attendee_info, cls=ObjectIdEncoder)] once
    [attendee_info["_id"] = result.inserted_id]: the encoder writes the
    [ObjectId] as [str(obj)].  This text is what the QR code holds. *)
Definition qr_record (a : attendee) (oid : N) : dict :=
  dict_set (attendee_info a) (pstr "_id") (JStr (oid_str oid)).

Definition qr_payload (a : attendee) (oid : N) : pystr := dumps (JObj (qr_record a oid)).

(** [st] is the status code of the registration script's answer.  A
    failure of [send_email_with_qr] only adds a flash message.
    [generate_qr_code] raises [DataOverflowError] when the text does not
    fit a version 40 code at level M (2331 bytes); that exception is not
    modelled, so the theorems below that reach it take [fits_qr]. *)
Definition register (st : Z) (a : attendee) : M response :=
  existing_registration <- find_one Registration (JStr (register_number a)) ;;
  match existing_registration with
  | Some _ =>
      ret (RRedirect "index"
             "You have already registered. Please check your details and try again.")
  | None =>
      oid <- insert_one Registration (attendee_info a) ;;
      let json_data := qr_payload a oid in
      _ <- post REGISTRATION_SCRIPT_URL json_data ;;
      if negb (st =? 200) then
        ret (RRedirect "index" "Failed to save data to Google Sheets. Please try again later.")
      else
        _ <- emit (EMail (email a) json_data) ;;
        ret (RTemplate "thanks.html")
  end.

(* ------------------------------------------------------------------ *)
(** ** [validate()] *)

(** Python truth value of a JSON value ([not qr_data]).  A number literal
    [-? int frac? exp?] is the integer or float [d * 10^e], with [d] its
    digits read as one integer and [e] its exponent less the number of
    fraction digits.  It is false when [d] is zero, or when it is a
    fraction of at most [2^-1075], half the smallest subnormal double:
    [float] rounds it (half to even) to [0.0]. *)
Fixpoint mantissa (lit : pystr) : pystr :=
  match lit with
  | c :: l => if (c =? 101) || (c =? 69) then [] else c :: mantissa l
  | [] => []
  end.

Fixpoint exponent_part (lit : pystr) : pystr :=
  match lit with
  | c :: l => if (c =? 101) || (c =? 69) then l else exponent_part l
  | [] => []
  end.

Fixpoint digits_value (acc : Z) (ds : pystr) : Z :=
  match ds with
  | c :: l => digits_value (10 * acc + (c - 48)) l
  | [] => acc
  end.

Fixpoint frac_length (m : pystr) : nat :=
  match m with
  | c :: l => if c =? 46 then List.length l else frac_length l
  | [] => O
  end.

Definition exponent (lit : pystr) : Z :=
  match exponent_part lit with
  | c :: ds =>
      if c =? 45 then - digits_value 0 ds
      else if c =? 43 then digits_value 0 ds
      else digits_value 0 (c :: ds)
  | [] => 0
  end.

Definition num_truthy (lit : pystr) : bool :=
  starts_with (pstr "NaN") lit || starts_with (pstr "Infinity") lit
  || starts_with (pstr "-Infinity") lit
  || (let m := mantissa lit in
      let d := digits_value 0 (filter is_digit m) in
      let e := exponent lit - Z.of_nat (frac_length m) in
      negb (d =? 0) && ((0 <=? e) || (10 ^ (- e) <? d * 2 ^ 1075))).

Definition truthy (v : json) : bool :=
  match v with
  | JNull => false
  | JBool b => b
  | JNum lit => num_truthy lit
  | JStr s => match s with [] => false | _ => true end
  | JArr l => match l with [] => false | _ => true end
  | JObj kv => match kv with [] => false | _ => true end
  end.

(** [request.json.get('qr_data')] is [None] when the key is missing. *)
Definition opt_truthy (v : option json) : bool :=
  match v with Some x => truthy x | None => false end.

Definition required_fields : list pystr :=
  [pstr "name"; pstr "degree"; pstr "class_section"; pstr "year";
   pstr "register_number"; pstr "email"; pstr "phone"].

(** [attendee_info[k]] where [k in attendee_info] is known: the [None]
    branch (a [KeyError]) is never taken. *)
Definition dict_index (d : dict) (k : pystr) : json :=
  match dict_get d k with Some v => v | None => JNull end.

(** [validation_data], copied field by field from [attendee_info]. *)
Definition validation_data (info : dict) : dict :=
  map (fun f => (f, dict_index info f)) required_fields.

Definition msg_no_data := "No QR data provided."%string.
Definition msg_bad_format := "Invalid QR code format."%string.
Definition msg_missing := "Missing required information in QR code."%string.
Definition msg_not_found := "Registration not found. Please register first."%string.
Definition msg_scanned := "This QR code has already been scanned."%string.
Definition msg_sheets := "Failed to save data to Google Sheets."%string.
Definition msg_ok := "Validation successful. Data saved."%string.

(** Lines 136-171 of [validate]: every check, up to the point where the
    validation document is ready ([inr]); [inl] is an early response.
    An exception outside [JSONDecodeError] and [KeyError] reaches Flask,
    which answers 500. *)
Definition validate_check (body : json) : M (response + dict) :=
  match body with
  | JObj req =>
      let qr_data := dict_get req (pstr "qr_data") in
      if negb (opt_truthy qr_data) then ret (inl (RJson false msg_no_data None))
      else
        match qr_data with
        | Some (JStr s) =>
            _ <- emit (ELoads s) ;;
            match loads s with
            | None => ret (inl (RJson false msg_bad_format None))
            | Some (JObj attendee_info) =>
                let register_number :=
                  match dict_get attendee_info (pstr "register_number") with
                  | Some v => v | None => JNull end in
                if negb (forallb (dict_mem attendee_info) required_fields) then
                  ret (inl (RJson false msg_missing None))
                else
                  existing_registration <- find_one Registration register_number ;;
                  match existing_registration with
                  | None => ret (inl (RJson false msg_not_found None))
                  | Some _ =>
                      existing_validation <- find_one Validation register_number ;;
                      match existing_validation with
                      | Some _ => ret (inl (RJson false msg_scanned None))
                      | None => ret (inr (validation_data attendee_info))
                      end
                  end
            | Some _ => ret (inl (RError 500 "AttributeError"))  (* .get on a non-dict *)
            end
        | _ => ret (inl (RError 500 "TypeError"))  (* json.loads of a non-str *)
        end
  | _ => ret (inl (RError 500 "AttributeError"))   (* request.json is not a dict *)
  end.

(** Lines 173-185: insert, forward to the validation script ([st] is its
    status code), answer. *)
Definition validate_commit (st : Z) (vd : dict) : M response :=
  oid <- insert_one Validation vd ;;
  let vd' := dict_set vd (pstr "_id") (JStr (oid_str oid)) in
  let json_data := dumps (JObj vd') in
  _ <- post VALIDATION_SCRIPT_URL json_data ;;
  if negb (st =? 200) then ret (RJson false msg_sheets None)
  else ret (RJson true msg_ok (Some vd')).

(** [POST] branch of [validate]. *)
Definition validate_post (st : Z) (body : json) : M response :=
  r <- validate_check body ;;
  match r with
  | inl resp => ret resp
  | inr vd => validate_commit st vd
  end.

(* ------------------------------------------------------------------ *)
(** ** URL map and dispatch *)

Inductive method := GET | POST.
Inductive endpoint := Ep_index | Ep_register | Ep_validate.

Definition method_eqb (m1 m2 : method) : bool :=
  match m1, m2 with GET, GET | POST, POST => true | _, _ => false end.

(** The [@app.route] decorators. *)
Definition url_map : list (string * list method * endpoint) :=
  [("/"%string, [GET], Ep_index);
   ("/register"%string, [POST], Ep_register);
   ("/$i$tvali"%string, [GET; POST], Ep_validate)].

Record request := {
  rq_method : method;
  rq_path : string;
  rq_json : json;        (* request.json *)
  rq_form : attendee }.  (* request.form *)

Definition validate (st : Z) (rq : request) : M response :=
  match rq_method rq with
  | GET => ret (RTemplate "validation.html")
  | POST => validate_post st (rq_json rq)
  end.

(** Werkzeug routing: no rule for the path is 404, a rule without the
    method is 405.  [st] is the status the external script will answer. *)
Definition handle (st : Z) (rq : request) : M response :=
  match find (fun '(p, _, _) => String.eqb p (rq_path rq)) url_map with
  | None => ret (RError 404 "NotFound")
  | Some (_, ms, ep) =>
      if negb (existsb (method_eqb (rq_method rq)) ms) then ret (RError 405 "MethodNotAllowed")
      else
        match ep with
        | Ep_index => ret (RTemplate "registration_form.html")
        | Ep_register => register st (rq_form rq)
        | Ep_validate => validate st rq
        end
  end.

(** Requests served one after another, each with the status the external
    script answers it. *)
Fixpoint serve (rqs : list (Z * request)) : M (list response) :=
  match rqs with
  | [] => ret []
  | (st, rq) :: rest =>
      r <- handle st rq ;;
      rs <- serve rest ;;
      ret (r :: rs)
  end.

(* ------------------------------------------------------------------ *)
(** ** Two validations at once

    Flask may serve two requests on two workers; nothing orders the
    [find_one] of one request against the [insert_one] of the other, and
    the [validation] collection has no unique index.  [race] is the
    schedule where both requests finish their checks before either
    inserts. *)



(* ------------------------------------------------------------------ *)
(** ** Spec vocabulary *)

(** A register number is in a collection when some stored document
    matches the query [{"register_number": rn}]. *)
Definition stored_in (docs : list doc) (rn : json) : Prop :=
  exists d, In d docs /\ matches rn d = true.

(** The two collections are unchanged from [w] to [w']. *)
Definition same_stores (w w' : world) : Prop :=
  registration w' = registration w /\ validation w' = validation w.

(** [w'] only adds documents to the collections of [w]. *)
Definition extends (w w' : world) : Prop :=
  (exists l, registration w' = registration w ++ l) /\
  (exists l, validation w' = validation w ++ l).

(** The request body [{"qr_data": s}] and its register number field. *)
Definition qr_body (s : pystr) : json := JObj [(pstr "qr_data", JStr s)].

Definition rn_of (info : dict) : json := dict_index info (pstr "register_number").

Definition empty_world : world :=
  {| registration := []; validation := []; next_oid := 0%N; trace := [] |}.

(** The attendee of the spec's scenario. *)
Definition asha : attendee :=
  {| name := pstr "Asha"; degree := pstr "B.E."; class_section := pstr "CSE-A";
     year := pstr "3"; register_number := pstr "R100"; email := pstr "a@x.com";
     phone := pstr "9876543210" |}.

(** The world once [asha] has registered (with the script answering 200). *)
Definition asha_registered : world := snd (register 200 asha empty_world).

(** What [m] answers satisfies [P], whatever the world. *)
Definition returns {A} (P : A -> Prop) (m : M A) : Prop := forall w, P (fst (m w)).

(** The JSON object of [POST] on the validation route:
    [{valid: true, message, attendee}] or [{valid: false, message}]; or a
    500 page when an exception escapes the handler. *)
Definition json_answer (r : response) : Prop :=
  match r with
  | RJson true _ (Some _) => True
  | RJson false _ None => True
  | RError 500 _ => True
  | _ => False
  end.

Definition check_answer (c : response + dict) : Prop :=
  match c with inl r => json_answer r | inr _ => True end.

Definition add_trace (w : world) (es : list event) : world :=
  {| registration := registration w; validation := validation w;
     next_oid := next_oid w; trace := trace w ++ es |}.

(** Computations that never change the collections, and computations that
    only add documents to them. *)
Definition keeps {A} (m : M A) : Prop := forall w, same_stores w (snd (m w)).
Definition grows {A} (m : M A) : Prop := forall w, extends w (snd (m w)).

(** A dict whose values are all strings, as a list of pairs. *)
Definition str_item (kv : pystr * pystr) : pystr :=
  encode_basestring_ascii (fst kv) ++ pstr ": " ++ encode_basestring_ascii (snd kv).

Definition sobj (l : list (pystr * pystr)) : dict := map (fun kv => (fst kv, JStr (snd kv))) l.

Definition wf_pair (kv : pystr * pystr) : Prop := wf_str (fst kv) = true /\ wf_str (snd kv) = true.

(** Fields of an attendee as form decoding yields them. *)
Definition wf_attendee (a : attendee) : Prop :=
  Forall (fun s => wf_str s = true)
    [name a; degree a; class_section a; year a; register_number a; email a; phone a].

Definition qr_pairs (a : attendee) (oid : N) : list (pystr * pystr) :=
  [(pstr "name", name a); (pstr "degree", degree a);
   (pstr "class_section", class_section a); (pstr "year", year a);
   (pstr "register_number", register_number a); (pstr "email", email a);
   (pstr "phone", phone a); (pstr "_id", oid_str oid)].

Definition msg_reg_dup := "You have already registered. Please check your details and try again."%string.
Definition msg_reg_sheets := "Failed to save data to Google Sheets. Please try again later."%string.

Definition reg_key (d : doc) : option json := dict_get (doc_fields d) (pstr "register_number").
Definition reg_unique (w : world) : Prop := NoDup (map reg_key (registration w)).
Definition register_request (a : attendee) : request :=
  {| rq_method := POST; rq_path := "/register"; rq_json := JNull; rq_form := a |}.

Definition ascii_code (c : Z) : Prop := 0 <= c < 128.


Definition eve : attendee :=
  {| name := pstr "Eve"; degree := pstr "M.E."; class_section := pstr "ECE-B";
     year := pstr "1"; register_number := pstr "R100"; email := pstr "e@y.com";
     phone := pstr "9000000000" |}.




(** The registration's JSON text fits a QR code of version 40 at level M,
    2331 bytes; the text is ASCII, so its length is its size in bytes, and
    it does not depend on the [ObjectId]. *)
Definition fits_qr (a : attendee) : bool := Nat.leb (List.length (qr_payload a 0)) 2331.

(* ------------------------------------------------------------------ *)
(** ** Lemmas *)

Lemma pystr_eqb_refl (s : pystr) : pystr_eqb s s = true.
Proof. induction s as [|c s IH]; simpl; [reflexivity|]. now rewrite Z.eqb_refl, IH. Qed.

Lemma pystr_eqb_eq (a b : pystr) : pystr_eqb a b = true -> a = b.
Proof.
  revert b; induction a as [|x a IH]; intros [|y b]; simpl; try discriminate; auto.
  intros H. apply andb_prop in H as [H1 H2]. apply Z.eqb_eq in H1. subst. f_equal. auto.
Qed.


Lemma find_none (q : json) (docs : list doc) :
  (forall d, In d docs -> matches q d = false) -> find (matches q) docs = None.
Proof.
  induction docs as [|d docs IH]; intros H; simpl; [reflexivity|].
  rewrite (H d (or_introl eq_refl)). apply IH. intros d' Hd'. apply H. now right.
Qed.

Lemma find_some_of_stored (q : json) (docs : list doc) :
  stored_in docs q -> exists d, find (matches q) docs = Some d.
Proof.
  intros [d [Hin Hm]]. induction docs as [|d' docs IH]; [contradiction|].
  simpl. destruct (matches q d') eqn:E; [eauto|].
  destruct Hin as [<-|Hin]; [congruence|]. auto.
Qed.

Lemma stored_in_app (docs l : list doc) (q : json) :
  stored_in docs q -> stored_in (docs ++ l) q.
Proof. intros [d [H1 H2]]. exists d. split; [apply in_or_app; now left | exact H2]. Qed.

Lemma loads_nil : loads [] = None.
Proof. reflexivity. Qed.


Ltac fold_rn :=
  repeat match goal with
  | |- context [match dict_get ?i (pstr "register_number") with Some v => v | None => JNull end] =>
      change (match dict_get i (pstr "register_number") with Some v => v | None => JNull end)
        with (rn_of i)
  end.

Ltac unfold_monad :=
  unfold validate_post, validate_check, validate_commit, bind, ret, emit, find_one,
    insert_one, post, add_trace.

(** The handler once [qr_data] decoded to an object with every field. *)
Lemma validate_check_fields (req : dict) (s : pystr) (info : dict) (w : world) :
  dict_get req (pstr "qr_data") = Some (JStr s) ->
  loads s = Some (JObj info) ->
  forallb (dict_mem info) required_fields = true ->
  validate_check (JObj req) w =
    match find (matches (rn_of info)) (registration w) with
    | None => (inl (RJson false msg_not_found None),
               add_trace w [ELoads s; EFind Registration (rn_of info)])
    | Some _ =>
        match find (matches (rn_of info)) (validation w) with
        | Some _ => (inl (RJson false msg_scanned None),
                     add_trace w [ELoads s; EFind Registration (rn_of info);
                                  EFind Validation (rn_of info)])
        | None => (inr (validation_data info),
                   add_trace w [ELoads s; EFind Registration (rn_of info);
                                EFind Validation (rn_of info)])
        end
    end.
Proof.
  intros Hq Hl Hf.
  destruct s as [|c s']; [rewrite loads_nil in Hl; discriminate|].
  unfold_monad. rewrite Hq. cbn -[loads required_fields pstr validation_data].
  rewrite Hl, Hf. cbn -[loads required_fields pstr validation_data]. fold_rn.
  destruct (find (matches (rn_of info)) (registration w)); cbn -[pstr validation_data].
  - destruct (find (matches (rn_of info)) (validation w));
      cbn -[pstr validation_data]; now rewrite <- !app_assoc.
  - now rewrite <- !app_assoc.
Qed.

Lemma validate_commit_eq (st : Z) (vd : dict) (w : world) :
  validate_commit st vd w =
    (let vd' := dict_set vd (pstr "_id") (JStr (oid_str (next_oid w))) in
     (if negb (st =? 200) then RJson false msg_sheets None else RJson true msg_ok (Some vd'),
      {| registration := registration w;
         validation := validation w ++ [{| doc_id := next_oid w; doc_fields := vd |}];
         next_oid := N.succ (next_oid w);
         trace := trace w ++ [EInsert Validation {| doc_id := next_oid w; doc_fields := vd |};
                              EPost VALIDATION_SCRIPT_URL (dumps (JObj vd'))] |})).
Proof.
  unfold_monad. cbn -[pstr dumps dict_set]. rewrite <- app_assoc.
  destruct (negb (st =? 200)); reflexivity.
Qed.

Lemma keeps_ret {A} (a : A) : keeps (ret a).
Proof. intros w. split; reflexivity. Qed.

Lemma keeps_emit (e : event) : keeps (emit e).
Proof. intros w. split; reflexivity. Qed.

Lemma keeps_find_one (c : collection) (q : json) : keeps (find_one c q).
Proof. intros w. split; reflexivity. Qed.

Lemma keeps_bind {A B} (m : M A) (k : A -> M B) :
  keeps m -> (forall a, keeps (k a)) -> keeps (bind m k).
Proof.
  intros Hm Hk w. unfold bind. destruct (m w) as [a w'] eqn:E.
  destruct (Hm w) as [H1 H2]. rewrite E in H1, H2. simpl in H1, H2.
  destruct (Hk a w') as [H3 H4]. split; congruence.
Qed.

Lemma grows_of_keeps {A} (m : M A) : keeps m -> grows m.
Proof.
  intros Hm w. destruct (Hm w) as [H1 H2]. split; exists []; rewrite app_nil_r; assumption.
Qed.

Lemma grows_insert_one (c : collection) (d : dict) : grows (insert_one c d).
Proof.
  intros w. destruct c; split; simpl; eexists; try reflexivity; now rewrite app_nil_r.
Qed.

Lemma extends_trans (w1 w2 w3 : world) : extends w1 w2 -> extends w2 w3 -> extends w1 w3.
Proof.
  intros [[l1 H1] [l2 H2]] [[l3 H3] [l4 H4]]. split.
  - exists (l1 ++ l3). now rewrite H3, H1, app_assoc.
  - exists (l2 ++ l4). now rewrite H4, H2, app_assoc.
Qed.

Lemma grows_bind {A B} (m : M A) (k : A -> M B) :
  grows m -> (forall a, grows (k a)) -> grows (bind m k).
Proof.
  intros Hm Hk w. unfold bind. destruct (m w) as [a w'] eqn:E.
  pose proof (Hm w) as H. rewrite E in H. eapply extends_trans; [exact H | apply Hk].
Qed.

Ltac keeps_tac :=
  repeat first
    [ apply keeps_ret | apply keeps_emit | apply keeps_find_one
    | apply keeps_bind; [| intros ?]
    | match goal with |- keeps (match ?x with _ => _ end) => destruct x end ].

Ltac grows_tac :=
  repeat first
    [ apply grows_of_keeps; solve [keeps_tac]
    | apply grows_insert_one
    | apply grows_bind; [| intros ?]
    | match goal with |- grows (match ?x with _ => _ end) => destruct x end
    | match goal with |- grows (if ?x then _ else _) => destruct x end ].

Lemma validate_check_keeps (body : json) : keeps (validate_check body).
Proof. unfold validate_check. keeps_tac. Qed.

Lemma validate_post_grows (st : Z) (body : json) : grows (validate_post st body).
Proof.
  unfold validate_post. apply grows_bind.
  - apply grows_of_keeps, validate_check_keeps.
  - intros [r | vd]; [apply grows_of_keeps, keeps_ret |].
    unfold validate_commit, post. grows_tac.
Qed.

Lemma handle_grows (st : Z) (rq : request) : grows (handle st rq).
Proof.
  unfold handle. grows_tac.
  unfold validate. destruct (rq_method rq); [apply grows_of_keeps, keeps_ret |].
  apply validate_post_grows.
Qed.

Lemma serve_grows (rqs : list (Z * request)) : grows (serve rqs).
Proof.
  induction rqs as [|[st rq] rqs IH]; simpl.
  - apply grows_of_keeps, keeps_ret.
  - apply grows_bind; [apply handle_grows | intros r].
    apply grows_bind; [exact IH | intros rs]. apply grows_of_keeps, keeps_ret.
Qed.


(** A complete payload whose register number is registered and not yet
    validated goes through to [validate_commit]. *)
Lemma validate_passes (st : Z) (req : dict) (s : pystr) (info : dict) (w : world) :
  dict_get req (pstr "qr_data") = Some (JStr s) ->
  loads s = Some (JObj info) ->
  forallb (dict_mem info) required_fields = true ->
  stored_in (registration w) (rn_of info) ->
  (forall d, In d (validation w) -> matches (rn_of info) d = false) ->
  validate_post st (JObj req) w
  = validate_commit st (validation_data info)
      (add_trace w [ELoads s; EFind Registration (rn_of info); EFind Validation (rn_of info)]).
Proof.
  intros Hq Hl Hf Hr Hv. unfold validate_post at 1. unfold bind at 1.
  rewrite (validate_check_fields req s info w Hq Hl Hf).
  destruct (find_some_of_stored _ _ Hr) as [d1 E1]. rewrite E1.
  rewrite (find_none _ _ Hv). reflexivity.
Qed.


Lemma returns_ret {A} (P : A -> Prop) (a : A) : P a -> returns P (ret a).
Proof. intros H w. exact H. Qed.

Lemma returns_bind {A B} (Q : A -> Prop) (P : B -> Prop) (m : M A) (k : A -> M B) :
  returns Q m -> (forall a, Q a -> returns P (k a)) -> returns P (bind m k).
Proof.
  intros Hm Hk w. unfold bind. specialize (Hm w). destruct (m w) as [a w']. exact (Hk a Hm w').
Qed.

Lemma validate_check_answer (body : json) : returns check_answer (validate_check body).
Proof.
  unfold validate_check.
  repeat first
    [ apply returns_ret; exact I
    | apply (returns_bind (fun _ => True)); [intros ?; exact I | intros ? _]
    | match goal with |- returns _ (match ?x with _ => _ end) => destruct x end
    | match goal with |- returns _ (if ?x then _ else _) => destruct x end ].
Qed.

Lemma validate_post_answer (st : Z) (body : json) : returns json_answer (validate_post st body).
Proof.
  unfold validate_post. apply (returns_bind check_answer); [apply validate_check_answer |].
  intros [r | vd] H; [apply returns_ret; exact H |].
  unfold validate_commit.
  apply (returns_bind (fun _ => True)); [intros ?; exact I | intros oid _].
  apply (returns_bind (fun _ => True)); [intros ?; exact I | intros u _].
  destruct (negb (st =? 200)); apply returns_ret; exact I.
Qed.

(* ------------------------------------------------------------------ *)
(** ** [json.loads] inverts [json.dumps] on string-valued objects *)

Lemma lor_shiftl_low (a b n : Z) :
  0 <= n -> 0 <= b < 2 ^ n -> Z.lor (Z.shiftl a n) b = a * 2 ^ n + b.
Proof.
  intros Hn Hb. rewrite Z.shiftl_mul_pow2 by lia.
  assert (Hl : Z.land (a * 2 ^ n) b = 0).
  { apply Z.bits_inj'. intros i Hi. rewrite Z.land_spec, Z.bits_0.
    destruct (Z.lt_ge_cases i n).
    - rewrite Z.mul_pow2_bits_low by lia. reflexivity.
    - rewrite <- (Z.mod_small b (2 ^ n)) by lia.
      rewrite Z.mod_pow2_bits_high by lia. apply andb_false_r. }
  pose proof (Z.add_lor_land (a * 2 ^ n) b). lia.
Qed.

Lemma land_15 (x : Z) : Z.land x 15 = x mod 16.
Proof. change 15 with (Z.ones 4). rewrite Z.land_ones by lia. reflexivity. Qed.

Lemma land_1023 (x : Z) : Z.land x 1023 = x mod 1024.
Proof. change 1023 with (Z.ones 10). rewrite Z.land_ones by lia. reflexivity. Qed.

Lemma hex_value_hexdigit (d : Z) : 0 <= d < 16 -> hex_value (hexdigit d) = Some d.
Proof.
  intros H.
  assert (d = 0 \/ d = 1 \/ d = 2 \/ d = 3 \/ d = 4 \/ d = 5 \/ d = 6 \/ d = 7 \/
          d = 8 \/ d = 9 \/ d = 10 \/ d = 11 \/ d = 12 \/ d = 13 \/ d = 14 \/ d = 15)
    as Hd by lia.
  repeat destruct Hd as [-> | Hd]; try reflexivity; subst; reflexivity.
Qed.

Lemma hex4_u_escape (c : Z) : 0 <= c < 65536 ->
  hex4 (hexdigit (Z.land (Z.shiftr c 12) 15)) (hexdigit (Z.land (Z.shiftr c 8) 15))
       (hexdigit (Z.land (Z.shiftr c 4) 15)) (hexdigit (Z.land c 15)) = Some c.
Proof.
  intros Hc. rewrite !land_15, !Z.shiftr_div_pow2 by lia.
  unfold hex4.
  rewrite !hex_value_hexdigit by (apply Z.mod_pos_bound; lia).
  f_equal.
  assert (B : forall x, 0 <= x mod 16 < 2 ^ 4)
    by (intros x; change (2 ^ 4) with 16; apply Z.mod_pos_bound; lia).
  rewrite !(lor_shiftl_low _ _ 4) by (lia || apply B).
  change (2 ^ 4) with 16. change (2 ^ 12) with 4096. change (2 ^ 8) with 256.
  assert (E1 : c = 16 * (c / 16) + c mod 16) by (apply Z.div_mod; lia).
  assert (E2 : c / 16 = 16 * (c / 256) + (c / 16) mod 16).
  { rewrite (Z.div_mod (c / 16) 16) at 1 by lia. rewrite Z.div_div by lia. reflexivity. }
  assert (E3 : c / 256 = 16 * (c / 4096) + (c / 256) mod 16).
  { rewrite (Z.div_mod (c / 256) 16) at 1 by lia. rewrite Z.div_div by lia. reflexivity. }
  assert (E4 : (c / 4096) mod 16 = c / 4096).
  { apply Z.mod_small. split; [apply Z.div_pos | apply Z.div_lt_upper_bound]; lia. }
  rewrite E4. lia.
Qed.

Lemma surrogates_ok (c : Z) : 65536 <= c <= 1114111 ->
  0 <= high_surrogate c < 65536 /\ 0 <= low_surrogate c < 65536 /\
  is_high_surrogate (high_surrogate c) = true /\ is_low_surrogate (low_surrogate c) = true /\
  join_surrogates (high_surrogate c) (low_surrogate c) = c.
Proof.
  intros Hc. unfold high_surrogate, low_surrogate, is_high_surrogate, is_low_surrogate,
    join_surrogates.
  change (Z.shiftr 65536 10) with 64. rewrite !Z.shiftr_div_pow2 by lia.
  change (2 ^ 10) with 1024. rewrite !land_1023.
  assert (M1 : 0 <= c mod 1024 < 1024) by (apply Z.mod_pos_bound; lia).
  assert (D1 : 64 <= c / 1024 < 1088).
  { split; [apply Z.div_le_lower_bound | apply Z.div_lt_upper_bound]; lia. }
  assert (E : c = 1024 * (c / 1024) + c mod 1024) by (apply Z.div_mod; lia).
  assert (H1 : (55296 - 64 + c / 1024) mod 1024 = c / 1024 - 64).
  { rewrite <- (Z.mod_small (c / 1024 - 64) 1024) by lia.
    replace (55296 - 64 + c / 1024) with ((c / 1024 - 64) + 54 * 1024) by lia.
    apply Z.mod_add; lia. }
  assert (H2 : (56320 + c mod 1024) mod 1024 = c mod 1024).
  { rewrite <- (Z.mod_small (c mod 1024) 1024) at 2 by lia.
    replace (56320 + c mod 1024) with (c mod 1024 + 55 * 1024) by lia.
    apply Z.mod_add; lia. }
  rewrite H1, H2, (lor_shiftl_low _ _ 10) by (change (2 ^ 10) with 1024; lia).
  change (2 ^ 10) with 1024.
  repeat split; try lia; apply andb_true_intro; split; apply Z.leb_le; lia.
Qed.

Lemma scanstring_escape_char (c : Z) (rest acc : pystr) :
  scalar_value c = true -> rest <> [] ->
  scanstring (escape_char c ++ rest) acc = scanstring rest (c :: acc).
Proof.
  intros Hc Hr. unfold scalar_value in Hc.
  unfold escape_char.
  destruct ((32 <=? c) && (c <=? 126) && negb (c =? 34) && negb (c =? 92)) eqn:P.
  - apply andb_prop in P as [P P4]. apply andb_prop in P as [P P3].
    apply andb_prop in P as [P1 P2].
    apply negb_true_iff in P3, P4. apply Z.leb_le in P1.
    cbn [app scanstring]. rewrite P3, P4.
    replace (c <=? 31) with false by (symmetry; apply Z.leb_gt; lia). reflexivity.
  - unfold ascii_escape_unichar.
    destruct (c =? 92) eqn:E92; [apply Z.eqb_eq in E92; subst; reflexivity |].
    destruct (c =? 34) eqn:E34; [apply Z.eqb_eq in E34; subst; reflexivity |].
    destruct (c =? 8) eqn:E8; [apply Z.eqb_eq in E8; subst; reflexivity |].
    destruct (c =? 12) eqn:E12; [apply Z.eqb_eq in E12; subst; reflexivity |].
    destruct (c =? 10) eqn:E10; [apply Z.eqb_eq in E10; subst; reflexivity |].
    destruct (c =? 13) eqn:E13; [apply Z.eqb_eq in E13; subst; reflexivity |].
    destruct (c =? 9) eqn:E9; [apply Z.eqb_eq in E9; subst; reflexivity |].
    destruct (65536 <=? c) eqn:Big.
    + apply Z.leb_le in Big.
      assert (Hc' : 65536 <= c <= 1114111) by lia.
      destruct (surrogates_ok c Hc') as (Bh & Bl & Hh & Hl & J).
      destruct rest as [|x r]; [contradiction|].
      unfold u_escape. cbn [app].
      cbn [scanstring]. cbv [negb]. cbn [Z.eqb Pos.eqb].
      rewrite (hex4_u_escape _ Bh), Hh, (hex4_u_escape _ Bl), Hl, J. reflexivity.
    + apply Z.leb_gt in Big.
      assert (Bc : 0 <= c < 65536) by lia.
      assert (Nh : is_high_surrogate c = false).
      { unfold is_high_surrogate. apply andb_false_iff.
        destruct (55296 <=? c) eqn:L; [right | left; reflexivity]. apply Z.leb_gt. lia. }
      unfold u_escape. cbn [app scanstring]. cbv [negb]. cbn [Z.eqb Pos.eqb].
      rewrite (hex4_u_escape _ Bc).
      destruct rest as [| b [| b' [| l1 [| l2 [| l3 [| l4 [| x s4]]]]]]];
        try contradiction; try reflexivity.
      rewrite Nh. reflexivity.
Qed.

Lemma scanstring_encoded (s rest acc : pystr) :
  wf_str s = true ->
  scanstring (flat_map escape_char s ++ 34 :: rest) acc = Some (rev acc ++ s, rest).
Proof.
  revert acc. induction s as [|c s IH]; intros acc Hw; simpl in Hw.
  - simpl. rewrite app_nil_r. reflexivity.
  - apply andb_prop in Hw as [Hc Hs]. cbn [flat_map]. rewrite <- app_assoc.
    rewrite scanstring_escape_char.
    + rewrite IH by exact Hs. simpl. rewrite <- app_assoc. reflexivity.
    + exact Hc.
    + intros H. apply app_eq_nil in H as [_ H]. discriminate H.
Qed.

Lemma dumps_sobj (l : list (pystr * pystr)) :
  dumps (JObj (sobj l)) = [123] ++ join (pstr ", ") (map str_item l) ++ [125].
Proof.
  cbn [dumps]. unfold sobj. rewrite map_map. reflexivity.
Qed.

Lemma parse_object_step (f : nat) (c : Z) (s1 : pystr) (acc : dict) :
  parse_object (S f) (c :: s1) acc =
  if negb (c =? 34) then None
  else
    match scanstring s1 [] with
    | None => None
    | Some (k, r) =>
        match skip_ws r with
        | c1 :: r1 =>
            if negb (c1 =? 58) then None
            else
              match scan_once f (skip_ws r1) with
              | None => None
              | Some (v, r2) =>
                  match skip_ws r2 with
                  | c2 :: r3 =>
                      if c2 =? 125 then Some (JObj (dict_set acc k v), r3)
                      else if c2 =? 44 then parse_object f (skip_ws r3) (dict_set acc k v)
                      else None
                  | [] => None
                  end
              end
        | [] => None
        end
    end.
Proof. reflexivity. Qed.

Lemma scan_once_string (f : nat) (s1 : pystr) :
  scan_once (S f) (34 :: s1) =
  match scanstring s1 [] with Some (x, r) => Some (JStr x, r) | None => None end.
Proof. reflexivity. Qed.

Lemma parse_item (f : nat) (k v tail : pystr) (acc : dict) :
  wf_str k = true -> wf_str v = true ->
  parse_object (S (S f)) (str_item (k, v) ++ tail) acc =
  match skip_ws tail with
  | c2 :: r3 =>
      if c2 =? 125 then Some (JObj (dict_set acc k (JStr v)), r3)
      else if c2 =? 44 then parse_object (S f) (skip_ws r3) (dict_set acc k (JStr v))
      else None
  | [] => None
  end.
Proof.
  intros Hk Hv.
  replace (str_item (k, v) ++ tail)
    with (34 :: flat_map escape_char k ++ 34 :: 58 :: 32 :: 34 :: flat_map escape_char v ++ 34 :: tail)
    by (unfold str_item, encode_basestring_ascii; cbn [fst snd];
        change (pstr ": ") with [58; 32]; do 3 (cbn [app]; rewrite <- ?app_assoc);
        reflexivity).
  rewrite parse_object_step. cbn [negb Z.eqb Pos.eqb].
  rewrite scanstring_encoded by exact Hk. cbn [rev app skip_ws is_ws Z.eqb Pos.eqb orb negb].
  rewrite scan_once_string, scanstring_encoded by exact Hv. reflexivity.
Qed.

Lemma dict_set_fresh (acc : dict) (k : pystr) (v : json) :
  dict_get acc k = None -> dict_set acc k v = acc ++ [(k, v)].
Proof.
  induction acc as [| [k' v'] d IH]; simpl; [reflexivity|].
  destruct (pystr_eqb k k'); [discriminate|]. intros H. rewrite IH by exact H. reflexivity.
Qed.

Lemma dict_get_app_fresh (acc : dict) (k k' : pystr) (v : json) :
  dict_get acc k' = None -> k' <> k -> dict_get (acc ++ [(k, v)]) k' = None.
Proof.
  intros H Hne. induction acc as [| [k0 v0] d IH]; simpl in *.
  - destruct (pystr_eqb k' k) eqn:E; [apply pystr_eqb_eq in E; contradiction | reflexivity].
  - destruct (pystr_eqb k' k0); [discriminate | auto].
Qed.

Lemma str_item_head (kv : pystr * pystr) : exists t, str_item kv = 34 :: t.
Proof. eexists. reflexivity. Qed.

Lemma join_items_head (kv : pystr * pystr) (l : list (pystr * pystr)) :
  exists t, join (pstr ", ") (map str_item (kv :: l)) = 34 :: t.
Proof.
  destruct (str_item_head kv) as [t Ht].
  destruct l; cbn [map join]; rewrite Ht; eexists; reflexivity.
Qed.

Lemma join_items_length (l : list (pystr * pystr)) :
  (List.length l <= List.length (join (pstr ", ") (map str_item l)))%nat.
Proof.
  induction l as [| kv l IH]; [simpl; lia|].
  destruct (str_item_head kv) as [t Ht].
  destruct l as [| p l].
  - cbn [map join]. rewrite Ht. simpl. lia.
  - change (join (pstr ", ") (map str_item (kv :: p :: l)))
      with (str_item kv ++ pstr ", " ++ join (pstr ", ") (map str_item (p :: l))).
    rewrite Ht, !length_app. simpl in *. lia.
Qed.

Lemma parse_object_items (l : list (pystr * pystr)) :
  forall (f : nat) (rest : pystr) (acc : dict),
  l <> [] -> Forall wf_pair l -> NoDup (map fst l) ->
  (forall k, In k (map fst l) -> dict_get acc k = None) ->
  (List.length l <= f)%nat ->
  parse_object (S f) (join (pstr ", ") (map str_item l) ++ 125 :: rest) acc =
  Some (JObj (acc ++ sobj l), rest).
Proof.
  induction l as [| [k v] l IH]; intros f rest acc Hne Hwf Hnd Hfr Hf; [contradiction|].
  inversion Hwf as [| ? ? [Hk Hv] Hwf']; subst.
  inversion Hnd as [| ? ? Hnin Hnd']; subst.
  destruct f as [| f]; [simpl in Hf; lia|].
  assert (Hacc : dict_set acc k (JStr v) = acc ++ [(k, JStr v)])
    by (apply dict_set_fresh, Hfr; left; reflexivity).
  destruct l as [| p l].
  - cbn [map join]. rewrite parse_item by assumption. cbn [skip_ws is_ws Z.eqb Pos.eqb orb].
    rewrite Hacc. reflexivity.
  - change (join (pstr ", ") (map str_item ((k, v) :: p :: l)))
      with (str_item (k, v) ++ pstr ", " ++ join (pstr ", ") (map str_item (p :: l))).
    destruct (join_items_head p l) as [t Ht]. rewrite Ht.
    rewrite <- !app_assoc. change (pstr ", ") with [44; 32]. cbn [app].
    rewrite parse_item by assumption. cbn [skip_ws is_ws Z.eqb Pos.eqb orb].
    change (34 :: t ++ 125 :: rest) with ((34 :: t) ++ 125 :: rest).
    rewrite <- Ht, Hacc.
    rewrite IH; [| discriminate | exact Hwf' | exact Hnd' | | simpl in Hf |- *; lia].
    + rewrite <- app_assoc. reflexivity.
    + intros k' Hin. apply dict_get_app_fresh.
      * apply Hfr. right. exact Hin.
      * intros ->. contradiction.
Qed.

Lemma loads_sobj (l : list (pystr * pystr)) :
  l <> [] -> Forall wf_pair l -> NoDup (map fst l) ->
  loads (dumps (JObj (sobj l))) = Some (JObj (sobj l)).
Proof.
  intros Hne Hwf Hnd. rewrite dumps_sobj.
  pose proof (join_items_length l) as Hlen.
  destruct l as [| kv l']; [contradiction|].
  destruct (join_items_head kv l') as [t Ht].
  unfold loads. rewrite Ht. cbn [app starts_with skip_ws is_ws Z.eqb Pos.eqb orb].
  cbn [scan_once Z.eqb Pos.eqb]. cbn [skip_ws is_ws Z.eqb Pos.eqb orb].
  cbn [andb].
  change (34 :: t ++ [125]) with ((34 :: t) ++ [125]). rewrite <- Ht.
  change (List.length (123 :: ?x)) with (S (List.length x)).
  rewrite parse_object_items; [| assumption .. | intros; reflexivity |].
  - reflexivity.
  - rewrite length_app. lia.
Qed.

Lemma qr_record_sobj (a : attendee) (oid : N) : qr_record a oid = sobj (qr_pairs a oid).
Proof. reflexivity. Qed.

Lemma hexdigit_scalar (d : Z) : scalar_value (hexdigit d) = true.
Proof.
  unfold hexdigit. destruct (nth_in_or_default (Z.to_nat d) hexdigits 0) as [H | ->].
  - assert (A : forallb scalar_value hexdigits = true) by reflexivity.
    rewrite forallb_forall in A. exact (A _ H).
  - reflexivity.
Qed.

Lemma oid_str_wf (oid : N) : wf_str (oid_str oid) = true.
Proof.
  unfold wf_str, oid_str. apply forallb_forall. intros x Hx.
  apply in_map_iff in Hx as [i [<- _]]. apply hexdigit_scalar.
Qed.

Lemma qr_pairs_wf (a : attendee) (oid : N) :
  wf_attendee a -> Forall wf_pair (qr_pairs a oid).
Proof.
  intros H. unfold wf_attendee in H.
  repeat match goal with H : Forall _ (_ :: _) |- _ => inversion H; clear H; subst end.
  repeat constructor; unfold wf_pair; cbn [fst snd]; auto using oid_str_wf.
Qed.

Lemma qr_pairs_keys (a : attendee) (oid : N) : NoDup (map fst (qr_pairs a oid)).
Proof.
  cbn [qr_pairs map fst].
  repeat constructor; cbv; intuition discriminate.
Qed.

(* ------------------------------------------------------------------ *)
(** ** Claims *)

(** C10: a body without [qr_data], or with [qr_data] null or the empty
    string, is answered [{valid: false, message: "No QR data provided."}]
    before anything else: no decoding, no lookup, no write, and the world
    is left exactly as it was. *)
Theorem validate_no_qr_data (st : Z) (req : dict) (w : world) :
  dict_get req (pstr "qr_data") = None \/
  dict_get req (pstr "qr_data") = Some JNull \/
  dict_get req (pstr "qr_data") = Some (JStr []) ->
  validate_post st (JObj req) w = (RJson false msg_no_data None, w).
Proof.
  intros H. unfold validate_post, validate_check, bind, ret.
  destruct H as [H | [H | H]]; rewrite H; reflexivity.
Qed.

Lemma validate_no_qr_data_witness :
  validate_post 200 (JObj [(pstr "qr_data", JStr [])]) empty_world
  = (RJson false msg_no_data None, empty_world).
Proof. apply validate_no_qr_data. right; right. reflexivity. Defined.







(** C6: registering a register number that is already stored redirects
    to the form with "You have already registered", inserts nothing and
    leaves the stored registration as it was. *)
Theorem register_duplicate_rejected (st : Z) (a : attendee) (w : world) :
  stored_in (registration w) (JStr (register_number a)) ->
  let '(resp, w') := register st a w in
  resp = RRedirect "index"
           "You have already registered. Please check your details and try again." /\
  same_stores w w' /\ next_oid w' = next_oid w.
Proof.
  intros H. destruct (find_some_of_stored _ _ H) as [d E].
  unfold register, bind, find_one, ret. cbn [coll_docs]. rewrite E.
  split; [reflexivity | split; [split |]; reflexivity].
Qed.

Lemma register_duplicate_rejected_witness :
  let '(resp, w') := register 200 asha asha_registered in
  resp = RRedirect "index"
           "You have already registered. Please check your details and try again." /\
  same_stores asha_registered w' /\ next_oid w' = next_oid asha_registered.
Proof.
  apply register_duplicate_rejected.
  vm_compute. eexists. split; [left; reflexivity | reflexivity].
Defined.

(** C3 (the code misses it): a [qr_data] string that [json.loads] accepts
    but that is not a JSON object (a number, a string, an array, [null],
    a boolean) makes [attendee_info.get] raise [AttributeError], which
    neither [except] clause catches: Flask answers 500 instead of
    [{valid: false, message}]. *)
Theorem validate_non_object_crashes (st : Z) (req : dict) (s : pystr) (v : json) (w : world) :
  dict_get req (pstr "qr_data") = Some (JStr s) ->
  loads s = Some v ->
  (forall kv, v <> JObj kv) ->
  fst (validate_post st (JObj req) w) = RError 500 "AttributeError".
Proof.
  intros Hq Hl Hv.
  destruct s as [|c s']; [rewrite loads_nil in Hl; discriminate|].
  unfold validate_post, validate_check, bind, ret, emit. rewrite Hq.
  cbn -[loads]. rewrite Hl.
  destruct v; try reflexivity. exfalso. eapply Hv. reflexivity.
Qed.

Lemma validate_non_object_crashes_witness :
  fst (validate_post 200 (qr_body (pstr "[]")) asha_registered) = RError 500 "AttributeError".
Proof.
  apply (validate_non_object_crashes 200 _ (pstr "[]") (JArr [])).
  - reflexivity.
  - reflexivity.
  - intros kv H. discriminate H.
Defined.




(** C8, as the claim states it, fails: the validation view is routed at
    [/$i$tvali]; [GET /validate] and [POST /validate] find no rule (404). *)
Lemma validate_route_counterexample :
  fst (handle 200 {| rq_method := GET; rq_path := "/validate"; rq_json := JNull;
                     rq_form := asha |} empty_world) = RError 404 "NotFound" /\
  fst (handle 200 {| rq_method := POST; rq_path := "/validate";
                     rq_json := qr_body (qr_payload asha 0); rq_form := asha |}
              asha_registered) = RError 404 "NotFound".
Proof. split; vm_compute; reflexivity. Qed.

(** C8, amended: the scan page is [GET /$i$tvali] (template
    [validation.html], nothing else done) and submissions are
    [POST /$i$tvali] with the JSON body handed to the validation handler,
    which answers a JSON object [{valid, message}], with [attendee]
    exactly when [valid] is true, whenever no exception escapes it. *)
Theorem validate_route (st : Z) (rq : request) (w : world) :
  rq_path rq = "/$i$tvali"%string ->
  (rq_method rq = GET -> handle st rq w = (RTemplate "validation.html", w)) /\
  (rq_method rq = POST ->
     handle st rq w = validate_post st (rq_json rq) w /\ json_answer (fst (handle st rq w))).
Proof.
  intros Hp. unfold handle. rewrite Hp. cbn -[validate].
  split; intros Hm; unfold validate; rewrite Hm; cbn -[validate_post].
  - reflexivity.
  - split; [reflexivity | apply validate_post_answer].
Qed.

Lemma validate_route_witness :
  let rq := {| rq_method := POST; rq_path := "/$i$tvali";
               rq_json := qr_body (qr_payload asha 0); rq_form := asha |} in
  (rq_method rq = GET -> handle 200 rq asha_registered = (RTemplate "validation.html", asha_registered)) /\
  (rq_method rq = POST ->
     handle 200 rq asha_registered = validate_post 200 (rq_json rq) asha_registered /\
     json_answer (fst (handle 200 rq asha_registered))).
Proof. apply validate_route. reflexivity. Defined.




(** C4: for an attendee whose seven fields are Unicode scalar values (as
    form decoding yields them) and any [ObjectId], [json.loads] of the QR
    payload returns exactly the record that [register] encoded: the seven
    fields in form order followed by [_id = str(ObjectId)]. *)
Theorem qr_payload_roundtrip (a : attendee) (oid : N) :
  wf_attendee a -> loads (qr_payload a oid) = Some (JObj (qr_record a oid)).
Proof.
  intros H. unfold qr_payload. rewrite qr_record_sobj.
  apply loads_sobj; [discriminate | apply qr_pairs_wf, H | apply qr_pairs_keys].
Qed.

Lemma qr_payload_roundtrip_witness :
  wf_attendee asha /\ loads (qr_payload asha 0) = Some (JObj (qr_record asha 0)).
Proof.
  assert (H : wf_attendee asha) by (repeat constructor).
  split; [exact H | apply (qr_payload_roundtrip asha 0 H)].
Defined.

(* ------------------------------------------------------------------ *)
(** ** Further properties of the handlers *)

Lemma find_none_inv (f : doc -> bool) (l : list doc) :
  find f l = None -> forall d, In d l -> f d = false.
Proof.
  induction l as [| d' l IH]; simpl; [tauto|].
  destruct (f d') eqn:E; [discriminate|]. intros H d [<- | Hin]; auto.
Qed.

Lemma register_fresh_eq (st : Z) (a : attendee) (w : world) :
  (forall d, In d (registration w) -> matches (JStr (register_number a)) d = false) ->
  register st a w =
    (if st =? 200 then RTemplate "thanks.html" else RRedirect "index" msg_reg_sheets,
     {| registration := registration w ++
                        [{| doc_id := next_oid w; doc_fields := attendee_info a |}];
        validation := validation w;
        next_oid := N.succ (next_oid w);
        trace := trace w ++
                 [EFind Registration (JStr (register_number a));
                  EInsert Registration {| doc_id := next_oid w; doc_fields := attendee_info a |};
                  EPost REGISTRATION_SCRIPT_URL (qr_payload a (next_oid w))] ++
                 (if st =? 200 then [EMail (email a) (qr_payload a (next_oid w))] else []) |}).
Proof.
  intros H. unfold register, bind, find_one, insert_one, post, emit, ret.
  cbn [coll_docs registration validation next_oid trace].
  rewrite (find_none _ _ H). cbn [registration validation next_oid trace].
  destruct (st =? 200); cbn [negb registration validation next_oid trace];
    rewrite <- !app_assoc; reflexivity.
Qed.

Lemma register_found_eq (st : Z) (a : attendee) (w : world) :
  stored_in (registration w) (JStr (register_number a)) ->
  register st a w = (RRedirect "index" msg_reg_dup,
                     add_trace w [EFind Registration (JStr (register_number a))]).
Proof.
  intros H. destruct (find_some_of_stored _ _ H) as [d E].
  unfold register, bind, find_one, ret, add_trace. cbn [coll_docs]. rewrite E. reflexivity.
Qed.

Lemma stored_in_registered (docs : list doc) (a : attendee) (oid : N) :
  stored_in (docs ++ [{| doc_id := oid; doc_fields := attendee_info a |}])
            (JStr (register_number a)).
Proof.
  eexists. split; [apply in_or_app; right; left; reflexivity |].
  unfold matches.
  change (dict_get (doc_fields {| doc_id := oid; doc_fields := attendee_info a |})
                   (pstr "register_number")) with (Some (JStr (register_number a))).
  cbn [json_eqb]. now rewrite pystr_eqb_refl.
Qed.

Lemma register_stores (st : Z) (a : attendee) (w : world) :
  stored_in (registration (snd (register st a w))) (JStr (register_number a)).
Proof.
  destruct (find (matches (JStr (register_number a))) (registration w)) eqn:E.
  - assert (Hs : stored_in (registration w) (JStr (register_number a))).
    { exists d. split; [eapply find_some in E; tauto|].
      apply find_some in E. tauto. }
    rewrite (register_found_eq st a w Hs). exact Hs.
  - rewrite (register_fresh_eq st a w (find_none_inv _ _ E)). apply stored_in_registered.
Qed.

(** A register number not yet in the registration collection, with form
    fields of Unicode scalar values whose JSON text fits a QR code: exactly
    one document (the form's seven fields) is appended to it, the
    validation collection is untouched, the JSON text is posted to the
    registration script, and the same text is mailed as QR code only when
    the script answers 200; otherwise the answer is the "Failed to save"
    redirect and the stored document stays. *)
Theorem register_new (st : Z) (a : attendee) (w : world) :
  wf_attendee a -> fits_qr a = true ->
  (forall d, In d (registration w) -> matches (JStr (register_number a)) d = false) ->
  let (r, w') := register st a w in
  registration w' = registration w ++ [{| doc_id := next_oid w; doc_fields := attendee_info a |}] /\
  validation w' = validation w /\
  trace w' = trace w ++
             [EFind Registration (JStr (register_number a));
              EInsert Registration {| doc_id := next_oid w; doc_fields := attendee_info a |};
              EPost REGISTRATION_SCRIPT_URL (qr_payload a (next_oid w))] ++
             (if st =? 200 then [EMail (email a) (qr_payload a (next_oid w))] else []) /\
  r = (if st =? 200 then RTemplate "thanks.html" else RRedirect "index" msg_reg_sheets).
Proof.
  intros _ _ H. rewrite (register_fresh_eq st a w H). repeat split; reflexivity.
Qed.

Lemma register_new_witness :
  wf_attendee asha /\ fits_qr asha = true /\
  (forall d, In d (registration empty_world) -> matches (JStr (register_number asha)) d = false) /\
  let (r, w') := register 503 asha empty_world in
  registration w' = registration empty_world ++
                    [{| doc_id := next_oid empty_world; doc_fields := attendee_info asha |}] /\
  validation w' = validation empty_world /\
  trace w' = trace empty_world ++
             [EFind Registration (JStr (register_number asha));
              EInsert Registration {| doc_id := next_oid empty_world; doc_fields := attendee_info asha |};
              EPost REGISTRATION_SCRIPT_URL (qr_payload asha (next_oid empty_world))] ++
             (if 503 =? 200 then [EMail (email asha) (qr_payload asha (next_oid empty_world))] else []) /\
  r = (if 503 =? 200 then RTemplate "thanks.html" else RRedirect "index" msg_reg_sheets).
Proof.
  assert (W : wf_attendee asha) by (repeat constructor).
  assert (F : fits_qr asha = true) by (vm_compute; reflexivity).
  assert (H : forall d, In d (registration empty_world) ->
              matches (JStr (register_number asha)) d = false) by (intros d []).
  split; [exact W | split; [exact F | split; [exact H |]]].
  exact (register_new 503 asha empty_world W F H).
Defined.

(** After one [register] call with form fields of Unicode scalar values
    whose JSON text fits a QR code, whatever the script answered, and
    after any further requests, a registration with the same register
    number is refused with the "already registered" redirect and changes
    no collection. *)
Theorem register_once (st st' : Z) (a b : attendee) (rqs : list (Z * request)) (w : world) :
  wf_attendee a -> fits_qr a = true ->
  register_number b = register_number a ->
  let w1 := snd (serve rqs (snd (register st a w))) in
  register st' b w1 =
    (RRedirect "index" msg_reg_dup, add_trace w1 [EFind Registration (JStr (register_number b))]).
Proof.
  intros _ _ Hb. cbv zeta. apply register_found_eq. rewrite Hb.
  destruct (serve_grows rqs (snd (register st a w))) as [[l H] _]. rewrite H.
  apply stored_in_app, register_stores.
Qed.

Lemma register_once_witness :
  wf_attendee asha /\ fits_qr asha = true /\ register_number eve = register_number asha /\
  let w1 := snd (serve [(200, register_request asha)] (snd (register 503 asha empty_world))) in
  register 200 eve w1 =
    (RRedirect "index" msg_reg_dup, add_trace w1 [EFind Registration (JStr (register_number eve))]).
Proof.
  assert (W : wf_attendee asha) by (repeat constructor).
  assert (F : fits_qr asha = true) by (vm_compute; reflexivity).
  assert (E : register_number eve = register_number asha) by reflexivity.
  split; [exact W | split; [exact F | split; [exact E |]]].
  exact (register_once 503 200 asha eve [(200, register_request asha)] empty_world W F E).
Defined.

Lemma validate_post_keeps_registration (st : Z) (body : json) (w : world) :
  registration (snd (validate_post st body w)) = registration w.
Proof.
  unfold validate_post, bind at 1. destruct (validate_check body w) as [c w1] eqn:E.
  destruct (validate_check_keeps body w) as [H1 _]. rewrite E in H1. cbn [snd] in H1.
  destruct c as [r | vd]; [exact H1|]. rewrite validate_commit_eq. exact H1.
Qed.

Lemma validate_keeps_registration (st : Z) (rq : request) (w : world) :
  registration (snd (validate st rq w)) = registration w.
Proof.
  unfold validate. destruct (rq_method rq); [reflexivity | apply validate_post_keeps_registration].
Qed.

Lemma register_keeps_validation (st : Z) (a : attendee) (w : world) :
  validation (snd (register st a w)) = validation w.
Proof.
  destruct (find (matches (JStr (register_number a))) (registration w)) eqn:E.
  - assert (Hs : stored_in (registration w) (JStr (register_number a))).
    { exists d. apply find_some in E. tauto. }
    rewrite (register_found_eq st a w Hs). reflexivity.
  - rewrite (register_fresh_eq st a w (find_none_inv _ _ E)). reflexivity.
Qed.

Lemma NoDup_snoc {A} (l : list A) (x : A) : NoDup l -> ~ In x l -> NoDup (l ++ [x]).
Proof.
  induction l as [| y l IH]; intros Hl Hx; simpl; [constructor; [tauto | constructor]|].
  inversion Hl as [| ? ? Hy Hl']; subst. constructor.
  - rewrite in_app_iff. intros [H | [H | []]]; [contradiction | apply Hx; left; auto].
  - apply IH; [exact Hl' | intros H; apply Hx; right; exact H].
Qed.

Lemma register_reg_unique (st : Z) (a : attendee) (w : world) :
  reg_unique w -> reg_unique (snd (register st a w)).
Proof.
  intros U. destruct (find (matches (JStr (register_number a))) (registration w)) eqn:E.
  - assert (Hs : stored_in (registration w) (JStr (register_number a))).
    { exists d. apply find_some in E. tauto. }
    rewrite (register_found_eq st a w Hs). exact U.
  - pose proof (find_none_inv _ _ E) as H. rewrite (register_fresh_eq st a w H).
    unfold reg_unique. cbn [registration snd]. rewrite map_app. apply NoDup_snoc; [exact U|].
    intros Hin. apply in_map_iff in Hin as [d [Hk Hd]].
    specialize (H d Hd). unfold matches in H. fold (reg_key d) in H. rewrite Hk in H.
    assert (Hn : reg_key {| doc_id := next_oid w; doc_fields := attendee_info a |}
                 = Some (JStr (register_number a))) by reflexivity.
    rewrite Hn in H. cbn [json_eqb] in H. rewrite pystr_eqb_refl in H. discriminate H.
Qed.

Lemma handle_reg_unique (st : Z) (rq : request) (w : world) :
  reg_unique w -> reg_unique (snd (handle st rq w)).
Proof.
  intros U. unfold handle.
  destruct (find _ url_map) as [[[p ms] ep] |]; [| exact U].
  destruct (negb _); [exact U|].
  destruct ep; [exact U | apply register_reg_unique, U |].
  unfold reg_unique. rewrite validate_keeps_registration. exact U.
Qed.



(** The validation route never changes the registration collection, and
    [register] never changes the validation collection. *)
Theorem flows_write_own_collection (st : Z) (rq : request) (a : attendee) (w : world) :
  registration (snd (validate st rq w)) = registration w /\
  validation (snd (register st a w)) = validation w.
Proof. split; [apply validate_keeps_registration | apply register_keeps_validation]. Qed.

(** Over any sequence of requests, both collections only grow at their
    end: no document is ever updated or deleted. *)
Theorem serve_append_only (rqs : list (Z * request)) (w : world) :
  (exists l, registration (snd (serve rqs w)) = registration w ++ l) /\
  (exists l, validation (snd (serve rqs w)) = validation w ++ l).
Proof. exact (serve_grows rqs w). Qed.

(** Requests served one after another keep the registration collection
    free of two documents with the same [register_number]. *)
Theorem serve_registration_unique (rqs : list (Z * request)) (w : world) :
  reg_unique w -> reg_unique (snd (serve rqs w)).
Proof.
  revert w. induction rqs as [| [st rq] rqs IH]; intros w U; [exact U|].
  cbn [serve]. unfold bind at 1. destruct (handle st rq w) as [r w1] eqn:E.
  pose proof (handle_reg_unique st rq w U) as U1. rewrite E in U1.
  unfold bind. destruct (serve rqs w1) as [rs w2] eqn:E2.
  specialize (IH w1 U1). rewrite E2 in IH. exact IH.
Qed.

Lemma serve_registration_unique_witness :
  reg_unique empty_world /\
  reg_unique (snd (serve [(200, register_request asha); (503, register_request asha)] empty_world)).
Proof.
  assert (U : reg_unique empty_world) by constructor.
  split; [exact U | exact (serve_registration_unique _ empty_world U)].
Defined.

(** A truthy [qr_data] that is not a string (a non-zero number, [true], a
    non-empty list or object) makes [json.loads] raise [TypeError], which
    no [except] clause catches: Flask answers 500 and nothing is changed. *)
Theorem validate_nonstring_qr_data (st : Z) (req : dict) (v : json) (w : world) :
  dict_get req (pstr "qr_data") = Some v -> truthy v = true -> (forall s, v <> JStr s) ->
  validate_post st (JObj req) w = (RError 500 "TypeError", w).
Proof.
  intros Hq Ht Hs. unfold validate_post, validate_check, bind, ret. rewrite Hq.
  cbn [opt_truthy]. rewrite Ht. cbn [negb].
  destruct v; try reflexivity. exfalso. eapply Hs. reflexivity.
Qed.

Lemma validate_nonstring_qr_data_witness :
  dict_get [(pstr "qr_data", JNum (pstr "5"))] (pstr "qr_data") = Some (JNum (pstr "5")) /\
  truthy (JNum (pstr "5")) = true /\ (forall s, JNum (pstr "5") <> JStr s) /\
  validate_post 200 (JObj [(pstr "qr_data", JNum (pstr "5"))]) asha_registered
    = (RError 500 "TypeError", asha_registered).
Proof.
  assert (H1 : dict_get [(pstr "qr_data", JNum (pstr "5"))] (pstr "qr_data")
               = Some (JNum (pstr "5"))) by reflexivity.
  assert (H2 : truthy (JNum (pstr "5")) = true) by reflexivity.
  assert (H3 : forall s, JNum (pstr "5") <> JStr s) by discriminate.
  split; [exact H1 | split; [exact H2 | split; [exact H3 |]]].
  exact (validate_nonstring_qr_data 200 _ _ asha_registered H1 H2 H3).
Defined.

Lemma hexdigit_ascii (d : Z) : ascii_code (hexdigit d).
Proof.
  unfold hexdigit, ascii_code. destruct (nth_in_or_default (Z.to_nat d) hexdigits 0) as [H | ->].
  - assert (A : forallb (fun c => (0 <=? c) && (c <? 128)) hexdigits = true) by reflexivity.
    rewrite forallb_forall in A. specialize (A _ H). apply andb_prop in A as [A1 A2]. lia.
  - lia.
Qed.

Lemma u_escape_ascii (c : Z) : Forall ascii_code (u_escape c).
Proof.
  unfold u_escape. repeat constructor; try apply hexdigit_ascii; unfold ascii_code; lia.
Qed.

Lemma escape_char_ascii (c : Z) : Forall ascii_code (escape_char c).
Proof.
  unfold escape_char.
  destruct ((32 <=? c) && (c <=? 126) && negb (c =? 34) && negb (c =? 92)) eqn:E.
  - repeat (apply andb_prop in E as [E ?]). constructor; [unfold ascii_code; lia | constructor].
  - unfold ascii_escape_unichar.
    repeat match goal with |- Forall _ (if ?b then _ else _) => destruct b end;
      try (repeat constructor; unfold ascii_code; lia).
    + apply Forall_app; split; apply u_escape_ascii.
    + apply u_escape_ascii.
Qed.

Lemma encode_ascii (s : pystr) : Forall ascii_code (encode_basestring_ascii s).
Proof.
  unfold encode_basestring_ascii. constructor; [unfold ascii_code; lia|].
  apply Forall_app; split; [| repeat constructor; unfold ascii_code; lia].
  induction s as [| c s IH]; [constructor|]. cbn [flat_map].
  apply Forall_app; split; [apply escape_char_ascii | exact IH].
Qed.

Lemma join_ascii (sep : pystr) (l : list pystr) :
  Forall ascii_code sep -> Forall (Forall ascii_code) l -> Forall ascii_code (join sep l).
Proof.
  intros Hs Hl. induction Hl as [| x l Hx Hl IH]; [constructor|].
  destruct l as [| y l]; [exact Hx|].
  change (join sep (x :: y :: l)) with (x ++ sep ++ join sep (y :: l)).
  apply Forall_app; split; [exact Hx|]. apply Forall_app; split; assumption.
Qed.

(** The text put in the QR code is pure ASCII whatever the form holds:
    [json.dumps] escapes every other character as [\uXXXX]. *)
Theorem qr_payload_ascii (a : attendee) (oid : N) : Forall ascii_code (qr_payload a oid).
Proof.
  unfold qr_payload. rewrite qr_record_sobj, dumps_sobj.
  apply Forall_app; split; [repeat constructor; unfold ascii_code; lia|].
  apply Forall_app; split; [| repeat constructor; unfold ascii_code; lia].
  apply join_ascii; [repeat constructor; unfold ascii_code; lia|].
  apply Forall_forall. intros x Hx. apply in_map_iff in Hx as [kv [<- _]].
  unfold str_item. apply Forall_app; split; [apply encode_ascii|].
  apply Forall_app; split; [repeat constructor; unfold ascii_code; lia | apply encode_ascii].
Qed.

Lemma qr_payload_decodes (a : attendee) (oid : N) :
  wf_attendee a -> loads (qr_payload a oid) = Some (JObj (qr_record a oid)).
Proof.
  intros H. unfold qr_payload. rewrite qr_record_sobj.
  apply loads_sobj; [discriminate | apply qr_pairs_wf, H | apply qr_pairs_keys].
Qed.

(** End to end: a new attendee, with form fields of Unicode scalar values
    whose JSON text fits a QR code, registers (the script answers 200); the QR
    text mailed to them, scanned at the validation route, is accepted when
    the validation script answers 200 and rejected with "Failed to save"
    otherwise.  Either way a validation document holding exactly the
    registration's seven fields is stored, and the returned attendee is
    those fields plus the new validation document's [_id]. *)
Theorem register_then_validate (st : Z) (a : attendee) (w : world) :
  wf_attendee a -> fits_qr a = true ->
  (forall d, In d (registration w) -> matches (JStr (register_number a)) d = false) ->
  (forall d, In d (validation w) -> matches (JStr (register_number a)) d = false) ->
  let w1 := snd (register 200 a w) in
  let p := qr_payload a (next_oid w) in
  In (EMail (email a) p) (trace w1) /\
  fst (validate_post st (qr_body p) w1) =
    (if st =? 200
     then RJson true msg_ok
            (Some (attendee_info a ++ [(pstr "_id", JStr (oid_str (N.succ (next_oid w))))]))
     else RJson false msg_sheets None) /\
  validation (snd (validate_post st (qr_body p) w1)) =
    validation w ++ [{| doc_id := N.succ (next_oid w); doc_fields := attendee_info a |}].
Proof.
  intros Hwf _ Hr Hv. cbv zeta.
  rewrite (register_fresh_eq 200 a w Hr). cbn [snd trace registration validation next_oid].
  change (200 =? 200) with true. cbv iota.
  split; [rewrite in_app_iff; right; simpl; tauto|]. unfold qr_body.
  rewrite (validate_passes st _ (qr_payload a (next_oid w)) (qr_record a (next_oid w)));
    [| reflexivity | apply qr_payload_decodes, Hwf | reflexivity | |].
  - rewrite validate_commit_eq. cbn [fst snd add_trace next_oid validation].
    change (validation_data (qr_record a (next_oid w))) with (attendee_info a).
    split; [| reflexivity].
    destruct (st =? 200); reflexivity.
  - change (rn_of (qr_record a (next_oid w))) with (JStr (register_number a)).
    apply stored_in_registered.
  - change (rn_of (qr_record a (next_oid w))) with (JStr (register_number a)). exact Hv.
Qed.

Lemma register_then_validate_witness :
  wf_attendee asha /\ fits_qr asha = true /\
  (forall d, In d (registration empty_world) -> matches (JStr (register_number asha)) d = false) /\
  (forall d, In d (validation empty_world) -> matches (JStr (register_number asha)) d = false) /\
  let w1 := snd (register 200 asha empty_world) in
  let p := qr_payload asha (next_oid empty_world) in
  In (EMail (email asha) p) (trace w1) /\
  fst (validate_post 200 (qr_body p) w1) =
    (if 200 =? 200
     then RJson true msg_ok
            (Some (attendee_info asha ++
                   [(pstr "_id", JStr (oid_str (N.succ (next_oid empty_world))))]))
     else RJson false msg_sheets None) /\
  validation (snd (validate_post 200 (qr_body p) w1)) =
    validation empty_world ++
    [{| doc_id := N.succ (next_oid empty_world); doc_fields := attendee_info asha |}].
Proof.
  assert (H1 : wf_attendee asha) by (repeat constructor).
  assert (H2 : forall d, In d (registration empty_world) ->
               matches (JStr (register_number asha)) d = false) by (intros d []).
  assert (H3 : forall d, In d (validation empty_world) ->
               matches (JStr (register_number asha)) d = false) by (intros d []).
  assert (F : fits_qr asha = true) by (vm_compute; reflexivity).
  split; [exact H1 | split; [exact F | split; [exact H2 | split; [exact H3 |]]]].
  exact (register_then_validate 200 asha empty_world H1 F H2 H3).
Defined.

Lemma validate_check_inr (body : json) (w w1 : world) (vd : dict) :
  validate_check body w = (inr vd, w1) ->
  exists req s info,
    body = JObj req /\ dict_get req (pstr "qr_data") = Some (JStr s) /\
    loads s = Some (JObj info) /\ forallb (dict_mem info) required_fields = true /\
    stored_in (registration w) (rn_of info) /\
    (forall d, In d (validation w) -> matches (rn_of info) d = false) /\
    vd = validation_data info /\
    w1 = add_trace w [ELoads s; EFind Registration (rn_of info); EFind Validation (rn_of info)].
Proof.
  intros H. destruct body as [| | | | | req]; try (inversion H; fail).
  destruct (dict_get req (pstr "qr_data")) as [v |] eqn:Hq;
    [| unfold validate_check, ret in H; rewrite Hq in H; inversion H].
  destruct (truthy v) eqn:Ht;
    [| unfold validate_check, ret in H; rewrite Hq in H; cbn [opt_truthy] in H;
       rewrite Ht in H; inversion H].
  destruct v as [| | | s | |];
    try (unfold validate_check, ret in H; rewrite Hq in H; cbn [opt_truthy] in H;
         rewrite Ht in H; inversion H; fail).
  destruct (loads s) as [j |] eqn:Hl;
    [| unfold validate_check, bind, emit, ret in H; rewrite Hq in H; cbn [opt_truthy] in H;
       rewrite Ht in H; cbn [negb] in H; rewrite Hl in H; inversion H].
  destruct j as [| | | | | info];
    try (unfold validate_check, bind, emit, ret in H; rewrite Hq in H; cbn [opt_truthy] in H;
         rewrite Ht in H; cbn [negb] in H; rewrite Hl in H; inversion H; fail).
  destruct (forallb (dict_mem info) required_fields) eqn:Hf;
    [| unfold validate_check, bind, emit, ret in H; rewrite Hq in H; cbn [opt_truthy] in H;
       rewrite Ht in H; cbn [negb] in H; rewrite Hl in H; rewrite Hf in H; inversion H].
  rewrite (validate_check_fields req s info w Hq Hl Hf) in H.
  destruct (find (matches (rn_of info)) (registration w)) as [d1 |] eqn:E1; [| inversion H].
  destruct (find (matches (rn_of info)) (validation w)) as [d2 |] eqn:E2; [inversion H |].
  inversion H; subst. exists req, s, info.
  repeat split; try reflexivity; try assumption.
  - exists d1. apply find_some in E1. exact E1.
  - apply find_none_inv, E2.
Qed.

Lemma validate_check_no_accept (body : json) :
  returns (fun c => match c with inl (RJson true _ _) => False | _ => True end)
          (validate_check body).
Proof.
  unfold validate_check.
  repeat first
    [ apply returns_ret; exact I
    | apply (returns_bind (fun _ => True)); [intros ?; exact I | intros ? _]
    | match goal with |- returns _ (match ?x with _ => _ end) => destruct x end
    | match goal with |- returns _ (if ?x then _ else _) => destruct x end ].
Qed.

(** For a string [qr_data] whose decoded object, if any, has a string
    [register_number] (no query operator), an answer [valid: true] means:
    it decoded to an object with the seven fields, its register number
    was registered and not yet validated, the validation script answered
    200, one document with the seven fields copied from the payload was
    appended to the validation collection, the registration collection is
    unchanged, and the returned attendee is that document plus [_id] of
    its new id. *)
Theorem validate_accept_effects (st : Z) (req : dict) (s : pystr) (w w' : world)
    (m : string) (att : dict) :
  dict_get req (pstr "qr_data") = Some (JStr s) ->
  (forall info, loads s = Some (JObj info) -> exists r, rn_of info = JStr r) ->
  validate_post st (JObj req) w = (RJson true m (Some att), w') ->
  exists info,
    loads s = Some (JObj info) /\ forallb (dict_mem info) required_fields = true /\
    st = 200 /\
    stored_in (registration w) (rn_of info) /\
    (forall d, In d (validation w) -> matches (rn_of info) d = false) /\
    registration w' = registration w /\
    validation w' = validation w ++ [{| doc_id := next_oid w; doc_fields := validation_data info |}] /\
    att = validation_data info ++ [(pstr "_id", JStr (oid_str (next_oid w)))].
Proof.
  intros Hq _ H. unfold validate_post, bind at 1 in H.
  destruct (validate_check (JObj req) w) as [[r | vd] w1] eqn:E.
  - pose proof (validate_check_no_accept (JObj req) w) as N. rewrite E in N.
    unfold ret in H. inversion H; subst. exact (False_ind _ N).
  - apply validate_check_inr in E as (req0 & s0 & info & Hb & Hq0 & Hl & Hf & Hr & Hv & Hvd & Hw).
    injection Hb as <-. rewrite Hq in Hq0. injection Hq0 as <-.
    subst vd w1. rewrite validate_commit_eq in H. cbn [add_trace next_oid registration validation] in H.
    destruct (st =? 200) eqn:Est; cbn [negb] in H; inversion H; subst.
    exists info. apply Z.eqb_eq in Est.
    repeat split; try assumption; try reflexivity.
Qed.

Lemma validate_accept_effects_witness :
  dict_get [(pstr "qr_data", JStr (qr_payload asha 0))] (pstr "qr_data")
    = Some (JStr (qr_payload asha 0)) /\
  (forall info, loads (qr_payload asha 0) = Some (JObj info) -> exists r, rn_of info = JStr r) /\
  validate_post 200 (qr_body (qr_payload asha 0)) asha_registered =
    (RJson true msg_ok (Some (attendee_info asha ++ [(pstr "_id", JStr (oid_str 1))])),
     snd (validate_post 200 (qr_body (qr_payload asha 0)) asha_registered)) /\
  exists info,
    loads (qr_payload asha 0) = Some (JObj info) /\
    forallb (dict_mem info) required_fields = true /\
    200 = 200 /\
    stored_in (registration asha_registered) (rn_of info) /\
    (forall d, In d (validation asha_registered) -> matches (rn_of info) d = false) /\
    registration (snd (validate_post 200 (qr_body (qr_payload asha 0)) asha_registered))
      = registration asha_registered /\
    validation (snd (validate_post 200 (qr_body (qr_payload asha 0)) asha_registered))
      = validation asha_registered ++
        [{| doc_id := next_oid asha_registered; doc_fields := validation_data info |}] /\
    attendee_info asha ++ [(pstr "_id", JStr (oid_str 1))]
      = validation_data info ++ [(pstr "_id", JStr (oid_str (next_oid asha_registered)))].
Proof.
  assert (Q : dict_get [(pstr "qr_data", JStr (qr_payload asha 0))] (pstr "qr_data")
              = Some (JStr (qr_payload asha 0))) by reflexivity.
  assert (R : forall info, loads (qr_payload asha 0) = Some (JObj info) ->
              exists r, rn_of info = JStr r).
  { intros info Hl. vm_compute in Hl. injection Hl as <-. eexists. reflexivity. }
  assert (H : validate_post 200 (qr_body (qr_payload asha 0)) asha_registered =
    (RJson true msg_ok (Some (attendee_info asha ++ [(pstr "_id", JStr (oid_str 1))])),
     snd (validate_post 200 (qr_body (qr_payload asha 0)) asha_registered)))
    by (vm_compute; reflexivity).
  split; [exact Q | split; [exact R | split; [exact H |]]].
  exact (validate_accept_effects _ _ _ _ _ _ _ Q R H).
Defined.


